(** * Documentation pipeline of argus-docs: Validator and Sync Engine

    Shallow embedding of
    - [scripts/validate-docs.js]   (the "loose" Validator, module [Loose]),
    - [unnamed/part_000]           (the "strict" Validator, module [Strict]),
    - [scripts/sync-docs.js]       (the Sync Engine, module [Sync]).

    JavaScript strings are sequences of UTF-16 code units; they are modelled
    as [list N].  String literals of the source are written [u "..."]. *)

From Stdlib Require Import Strings.String Strings.Ascii NArith Lia.
From stdpp Require Import base list gmap.

Set Warnings "-register-all".

Abbreviation text := (list N).

(** ASCII string literal as a list of UTF-16 code units. *)
Definition u (s : string) : text :=
  map N_of_ascii (list_ascii_of_string s).

Definition nl : N := 10.
Definition dash : N := 45.
Definition slash : N := 47.
(** U+274C CROSS MARK and U+2705 WHITE HEAVY CHECK MARK. *)
Definition cross_mark : N := 10060.
Definition check_mark : N := 9989.

(** Line terminators of ECMAScript (LF, CR, LS, PS): the characters after
    which [^] matches under the [m] flag and which [.] does not match. *)
Definition is_line_terminator (c : N) : bool :=
  (c =? 10)%N || (c =? 13)%N || (c =? 8232)%N || (c =? 8233)%N.

(** Canonicalize of a non-unicode, ignore-case RegExp: toUpperCase, except
    that a non-ASCII unit never maps to ASCII.  On ASCII this is the ASCII
    upper-casing; no unit outside ASCII letters canonicalizes to one. *)
Definition canon (c : N) : N :=
  if ((97 <=? c) && (c <=? 122))%N then (c - 32)%N else c.

Definition eqb_ci (a b : N) : bool := (canon a =? canon b)%N.

Fixpoint is_prefix (p s : text) : bool :=
  match p, s with
  | [], _ => true
  | a :: p', b :: s' => (a =? b)%N && is_prefix p' s'
  | _ :: _, [] => false
  end.

Fixpoint is_prefix_ci (p s : text) : bool :=
  match p, s with
  | [], _ => true
  | a :: p', b :: s' => eqb_ci a b && is_prefix_ci p' s'
  | _ :: _, [] => false
  end.

(** [String.prototype.includes]. *)
Fixpoint includes (s p : text) : bool :=
  is_prefix p s ||
  match s with
  | [] => false
  | _ :: s' => includes s' p
  end.

(** [/W/i.test(s)] for a literal word [W]: a case-insensitive occurrence
    anywhere in [s]. *)
Fixpoint test_ci_word (w s : text) : bool :=
  is_prefix_ci w s ||
  match s with
  | [] => false
  | _ :: s' => test_ci_word w s'
  end.

(** [String.prototype.startsWith] / [endsWith]. *)
Definition startsWith (s p : text) : bool := is_prefix p s.
Definition endsWith (s p : text) : bool := is_prefix (rev p) (rev s).

(** A case-insensitive match of [p] that ends at the end of [s]. *)
Definition endsWith_ci (s p : text) : bool := is_prefix_ci (rev p) (rev s).

(** [s.split(c)] for a one-unit separator [c]. *)
Fixpoint split_char_aux (c : N) (s acc : text) : list text :=
  match s with
  | [] => [rev acc]
  | x :: s' =>
      if (x =? c)%N then rev acc :: split_char_aux c s' []
      else split_char_aux c s' (x :: acc)
  end.
Definition split_char (c : N) (s : text) : list text := split_char_aux c s [].

(** [arr.pop()] on the (never empty) result of [split]. *)
Definition pop (parts : list text) : text := List.last parts [].

(** [arr[0]] on the result of [split]. *)
Definition first (parts : list text) : text := List.hd [] parts.

(** [parts.join(c)] *)
Fixpoint join_char (c : N) (parts : list text) : text :=
  match parts with
  | [] => []
  | [p] => p
  | p :: ps => p ++ c :: join_char c ps
  end.

(** Decimal rendering of a count in a template literal. *)
Fixpoint digits_aux (fuel n : nat) (acc : text) : text :=
  match fuel with
  | O => acc
  | S f =>
      let acc' := N.of_nat (48 + n mod 10) :: acc in
      if Nat.ltb n 10 then acc' else digits_aux f (n / 10) acc'
  end.
Definition show_nat (n : nat) : text := digits_aux (S n) n [].

(** [/^P/m.test(s)]: [P] occurs at the start of [s] or right after a line
    terminator. *)
Fixpoint after_line_terminator (p s : text) : bool :=
  match s with
  | [] => false
  | c :: s' => (is_line_terminator c && is_prefix p s') || after_line_terminator p s'
  end.
Definition test_line_start (p s : text) : bool :=
  is_prefix p s || after_line_terminator p s.

(** ** The loose Validator, [scripts/validate-docs.js] *)
Module Loose.

(** The two shapes of [JUNK_PATTERNS]: [/W\.md$/i] and [/W.*\.md$/i]. *)
Inductive junk_pattern :=
| WordMd (w : text)          (* /W\.md$/i *)
| WordAnyMd (w : text).      (* /W.*\.md$/i *)

Definition JUNK_PATTERNS : list junk_pattern :=
  [ WordMd (u "SUMMARY"); WordMd (u "COMPLETE"); WordMd (u "FIXES");
    WordAnyMd (u "SESSION"); WordAnyMd (u "PROMPT"); WordMd (u "STATUS");
    WordMd (u "_AUDIT"); WordMd (u "VERIFICATION") ].

Definition REQUIRED_FRONTMATTER : list text := [u "title"].

(** [/.*\.md$/i] anchored at the start of [r]: [r] ends in [.md] (any case)
    and the units before it are no line terminators. *)
Definition dotstar_md_end (r : text) : bool :=
  (3 <=? length r)%nat
  && is_prefix_ci (u ".md") (drop (length r - 3) r)
  && forallb (fun c => negb (is_line_terminator c)) (take (length r - 3) r).

Fixpoint test_word_any_md (w s : text) : bool :=
  (is_prefix_ci w s && dotstar_md_end (drop (length w) s)) ||
  match s with
  | [] => false
  | _ :: s' => test_word_any_md w s'
  end.

(** [p.test(filename)] *)
Definition test (p : junk_pattern) (s : text) : bool :=
  match p with
  | WordMd w => endsWith_ci s (w ++ u ".md")
  | WordAnyMd w => test_word_any_md w s
  end.

(** [content.split('---')]: the separator is searched left to right, and
    the search resumes after each occurrence. *)
Fixpoint split_dashes_aux (fuel : nat) (s acc : text) : list text :=
  match fuel with
  | O => [rev acc ++ s]
  | S f =>
      match s with
      | [] => [rev acc]
      | x :: s' =>
          if is_prefix (u "---") s then rev acc :: split_dashes_aux f (drop 3 s) []
          else split_dashes_aux f s' (x :: acc)
      end
  end.

(** Each step consumes at least one unit, so [length s] steps suffice. *)
Definition split_dashes (s : text) : list text :=
  split_dashes_aux (S (length s)) s [].

(** [validateFile(filepath)], with [content] the text [readFileSync] returns.
    The link scan at the end of the function pushes no error and cannot
    throw (every [link] contains a parenthesised part), so it is omitted. *)
Definition validateFile (filepath content : text) : list text :=
  let filename := pop (split_char slash filepath) in
  let junk :=
    if existsb (fun p => test p filename) JUNK_PATTERNS
    then [u "Junk doc detected: " ++ filename] else [] in
  let fm_errors :=
    if startsWith content (u "---") then
      (* [content.split('---')[1]]; it exists since [content] starts with
         the separator *)
      let frontmatter := nth 1 (split_dashes content) [] in
      flat_map (fun field =>
                  if includes frontmatter (field ++ u ":") then []
                  else [u "Missing frontmatter: " ++ field])
               REQUIRED_FRONTMATTER
    else [] in
  junk ++ fm_errors.

End Loose.

(** ** The strict Validator, [unnamed/part_000] *)
Module Strict.

Definition JUNK_PATTERNS : list text :=
  [u "SUMMARY"; u "COMPLETE"; u "FIXES"; u "SESSION"; u "PROMPT";
   u "STATUS"; u "AUDIT"; u "VERIFICATION"].

Definition REQUIRED_FRONTMATTER : list text := [u "title"; u "description"].

Definition VALIDATION_ROOTS : list text := [u "guide"; u "api"; u "components"].

Definition IGNORE_DIRS : list text :=
  [u "node_modules"; u ".git"; u ".github"; u ".vscode"].

(** The lazy group of [/^---\n([\s\S]*?)\n---/]: the shortest prefix of
    [s] that is followed by [\n---]. *)
Fixpoint find_close (s acc : text) : option text :=
  if is_prefix (nl :: u "---") s then Some (rev acc)
  else match s with
       | [] => None
       | c :: s' => find_close s' (c :: acc)
       end.

Definition extractFrontmatter (content : text) : option text :=
  if is_prefix (u "---" ++ [nl]) content then find_close (drop 4 content) []
  else None.

(** [!frontmatter]: [null] and the empty string are both falsy. *)
Definition falsy (fm : option text) : bool :=
  match fm with None => true | Some [] => true | Some _ => false end.

(** [validateFile({ fullPath, relPath })], with [content] the text read from
    [fullPath]. *)
Definition validateFile (relPath content : text) : list text :=
  let filename := pop (split_char slash relPath) in
  let junk :=
    if existsb (fun w => test_ci_word w filename) JUNK_PATTERNS
    then [u "Junk doc detected: " ++ filename] else [] in
  let frontmatter := extractFrontmatter content in
  let fm_errors :=
    match frontmatter with
    | Some fm =>
        if falsy frontmatter then [u "Missing frontmatter block"]
        else flat_map (fun field =>
                         if test_line_start (field ++ u ":") fm then []
                         else [u "Missing frontmatter: " ++ field])
                      REQUIRED_FRONTMATTER
    | None => [u "Missing frontmatter block"]
    end in
  junk ++ fm_errors.

End Strict.

(** ** File trees and the [validate] driver shared by both variants *)

(** A directory tree as [readdirSync] and [statSync] see it: entries in
    listing order; a file carries the text [readFileSync] returns. *)
Inductive node :=
| File (name : text) (content : text)
| Dir (name : text) (items : list node).

Definition node_name (n : node) : text :=
  match n with File name _ => name | Dir name _ => name end.

(** [join(dir, item)] for the walk started at ['.']: components separated
    by ['/'], without a leading ['./']. *)
Definition path_of (pre : list text) (item : text) : text :=
  join_char slash (pre ++ [item]).

(** What the driver holds for each collected path: [Some content] when
    [readFileSync] returns, [None] when it throws (the path is a directory,
    [EISDIR]). *)
Definition read_node (n : node) : option text :=
  match n with File _ c => Some c | Dir _ _ => None end.

(** Outcome of a run: the lines written by [console.log] and the exit
    status, or the lines written before an uncaught exception. *)
Inductive outcome :=
| Exited (out : list text) (code : nat)
| Threw (out : list text).

Definition header_line (file : text) : text :=
  [nl; cross_mark] ++ u " " ++ file ++ u ":".
Definition error_line (e : text) : text := u "   " ++ e.
Definition failed_line (n : nat) : text :=
  [nl; cross_mark] ++ u " Validation failed: " ++ show_nat n ++ u " errors".
Definition validated_line : text := [nl; check_mark] ++ u " All docs validated".

Section Driver.

(** The variant's [validateFile], as a function of the printed path and
    the file content. *)
Variable validateFile : text -> text -> list text.

(** The loop of [validate()] over the collected files, then the final
    check of [totalErrors]. *)
Fixpoint run (files : list (text * option text)) (out : list text) (totalErrors : nat)
  : outcome :=
  match files with
  | [] =>
      if (0 <? totalErrors)%nat
      then Exited (out ++ [failed_line totalErrors]) 1
      else Exited (out ++ [validated_line]) 0
  | (file, None) :: _ => Threw out
  | (file, Some content) :: files' =>
      let errors := validateFile file content in
      if (0 <? length errors)%nat
      then run files' (out ++ header_line file :: map error_line errors)
               (totalErrors + length errors)
      else run files' out totalErrors
  end.

End Driver.

Module LooseWalk.

(** [findMarkdownFiles] of [scripts/validate-docs.js]: a directory whose
    name starts with ['.'] falls through to the [.md] test. *)
Fixpoint find (pre : list text) (n : node) : list (text * node) :=
  match n with
  | File item _ =>
      if endsWith item (u ".md") then [(path_of pre item, n)] else []
  | Dir item items =>
      if negb (startsWith item (u ".")) then
        (fix go (l : list node) : list (text * node) :=
           match l with
           | [] => []
           | x :: l' => find (pre ++ [item]) x ++ go l'
           end) items
      else if endsWith item (u ".md") then [(path_of pre item, n)] else []
  end.

(** [findMarkdownFiles('.')] on the entries of the working directory. *)
Definition findMarkdownFiles (cwd_items : list node) : list (text * node) :=
  flat_map (find []) cwd_items.

Definition validate (cwd_items : list node) : outcome :=
  run Loose.validateFile
      (map (fun '(p, n) => (p, read_node n)) (findMarkdownFiles cwd_items)) [] 0.

End LooseWalk.

Module StrictWalk.

Definition has (set : list text) (x : text) : bool :=
  existsb (fun y => bool_decide (y = x)) set.

(** [shouldValidate(filepath)] *)
Definition shouldValidate (filepath : text) : bool :=
  let parts := split_char slash filepath in
  let root := first parts in
  has Strict.VALIDATION_ROOTS root || bool_decide (filepath = u "index.md").

(** [findMarkdownFiles] of [unnamed/part_000]; [relative(process.cwd(),
    fullPath)] is the walked path itself, so [fullPath] and [relPath]
    coincide and one path is kept. *)
Fixpoint find (pre : list text) (n : node) : list (text * text) :=
  match n with
  | File item content =>
      if endsWith item (u ".md") then
        let relPath := path_of pre item in
        if shouldValidate relPath then [(relPath, content)] else []
      else []
  | Dir item items =>
      if has Strict.IGNORE_DIRS item || startsWith item (u ".") then []
      else
        (fix go (l : list node) : list (text * text) :=
           match l with
           | [] => []
           | x :: l' => find (pre ++ [item]) x ++ go l'
           end) items
  end.

Definition findMarkdownFiles (cwd_items : list node) : list (text * text) :=
  flat_map (find []) cwd_items.

Definition validate (cwd_items : list node) : outcome :=
  run Strict.validateFile
      (map (fun '(p, c) => (p, Some c)) (findMarkdownFiles cwd_items)) [] 0.

End StrictWalk.

(** ** The Sync Engine, [scripts/sync-docs.js] *)
Module Sync.

Definition APPROVED_SOURCES : list (text * text) :=
  [ (u "/mnt/development/README.md", u "guide/index.md");
    (u "/mnt/development/AI_MASTER_GUIDE.md", u "guide/ai-guide.md");
    (u "/mnt/development/CODING_GUIDELINES.md", u "guide/coding-guidelines.md");
    (u "/mnt/development/TYPE_SAFETY_RULES.md", u "guide/type-safety.md");
    (u "/mnt/development/I18N_AND_ACCESSIBILITY_REQUIREMENTS.md", u "guide/accessibility.md");
    (u "/mnt/development/DATABASE_CONNECTION_GUIDE.md", u "guide/database.md");
    (u "/mnt/development/CLOUDFLARE_MANAGEMENT_GUIDE.md", u "guide/deployment.md") ].

Definition BLOCKED_PATTERNS : list text :=
  [u "SUMMARY"; u "COMPLETE"; u "FIXES"; u "SESSION"; u "PROMPT"; u "STATUS"; u "AUDIT"].

(** [isJunkDoc(filename)] *)
Definition isJunkDoc (filename : text) : bool :=
  existsb (fun pattern => test_ci_word pattern filename) BLOCKED_PATTERNS.

(** The file system, keyed by absolute path. *)
Inductive fentry := FileE (content : text) | DirE.

Inductive io_error := ENOENT | EISDIR | ENOTDIR.

(** Synchronous [fs] calls either return or throw. *)
Inductive result (A : Type) : Type :=
| Ok (x : A)
| Throw (e : io_error).
Arguments Ok {A} x.
Arguments Throw {A} e.

Global Instance result_ret : MRet result := fun A x => Ok x.
Global Instance result_bind : MBind result := fun A B f m =>
  match m with Ok x => f x | Throw e => Throw e end.

Definition existsSync (m : gmap text fentry) (p : text) : bool :=
  bool_decide (is_Some (m !! p)).

Definition readFileSync (m : gmap text fentry) (p : text) : result text :=
  match m !! p with
  | Some (FileE c) => Ok c
  | Some DirE => Throw EISDIR
  | None => Throw ENOENT
  end.

(** [path.dirname] of an absolute path. *)
Definition dirname (p : text) : text :=
  match rev (split_char slash p) with
  | _ :: rest =>
      match join_char slash (rev rest) with
      | [] => if startsWith p (u "/") then u "/" else u "."
      | d => d
      end
  | [] => u "."
  end.

(** The directory of [p] and its ancestors, nearest first, up to the root
    (where [dirname] is a fixed point). *)
Fixpoint ancestors (fuel : nat) (d : text) : list text :=
  match fuel with
  | O => [d]
  | S f => d :: (if bool_decide (dirname d = d) then [] else ancestors f (dirname d))
  end.

Definition dest_ancestors (p : text) : list text := ancestors (length p) (dirname p).

(** The entry of the nearest path of [l] that exists. *)
Fixpoint first_existing (m : gmap text fentry) (l : list text) : option fentry :=
  match l with
  | [] => None
  | a :: l' => match m !! a with Some e => Some e | None => first_existing m l' end
  end.

(** [writeFileSync(p, c)]: creates or truncates the file; the parent
    directory must exist.  The file system is a tree (the ancestors of
    every entry are directories), so when the parent is missing, path
    resolution fails at the nearest existing ancestor: [ENOTDIR] when that
    is a regular file, [ENOENT] (a missing component) otherwise. *)
Definition writeFileSync (m : gmap text fentry) (p c : text) : result (gmap text fentry) :=
  match m !! dirname p with
  | Some DirE =>
      match m !! p with
      | Some DirE => Throw EISDIR
      | _ => Ok (<[p := FileE c]> m)
      end
  | Some (FileE _) => Throw ENOTDIR
  | None =>
      match first_existing m (dest_ancestors p) with
      | Some (FileE _) => Throw ENOTDIR
      | _ => Throw ENOENT
      end
  end.

(** [join(process.cwd(), dest)] for an absolute, normalised [cwd] and a
    normalised relative [dest]. *)
Definition join_cwd (cwd dest : text) : text :=
  if bool_decide (cwd = u "/") then cwd ++ dest else cwd ++ slash :: dest.

Record state := mkState {
  fsys : gmap text fentry;
  synced : nat;
  blocked : nat;
  log : list text
}.

Definition arrow : N := 8594.
Definition bar_chart : text := [55357; 56522]%N.

(** The [for] loop of [syncDocs()] over [Object.entries(APPROVED_SOURCES)]. *)
Fixpoint sync_loop (cwd : text) (entries : list (text * text)) (st : state) : result state :=
  match entries with
  | [] => Ok st
  | (source, dest) :: rest =>
      if isJunkDoc source then
        sync_loop cwd rest
          (mkState (fsys st) (synced st) (S (blocked st))
                   (log st ++ [[cross_mark] ++ u " Blocked: " ++ source]))
      else if existsSync (fsys st) source then
        content ← readFileSync (fsys st) source;
        let destPath := join_cwd cwd dest in
        fs' ← writeFileSync (fsys st) destPath content;
        sync_loop cwd rest
          (mkState fs' (S (synced st)) (blocked st)
                   (log st ++ [[check_mark] ++ u " Synced: " ++ source ++ u " " ++ [arrow] ++ u " " ++ dest]))
      else sync_loop cwd rest st
  end.

Definition summary_line (st : state) : text :=
  [nl] ++ bar_chart ++ u " Summary: " ++ show_nat (synced st) ++ u " synced, "
  ++ show_nat (blocked st) ++ u " blocked".

(** [syncDocs()], run in [cwd] on the file system [m], with the mapping
    [sources] in the place of [APPROVED_SOURCES]. *)
Definition syncDocs (cwd : text) (sources : list (text * text)) (m : gmap text fentry)
  : result state :=
  st ← sync_loop cwd sources (mkState m 0 0 []);
  Ok (mkState (fsys st) (synced st) (blocked st) (log st ++ [summary_line st])).

End Sync.

(** ** Inputs and observations used in the properties *)

(** The file of the spec's example: an empty block written [---\n---]. *)
Definition empty_block_file : text :=
  u "---" ++ [nl] ++ u "---" ++ [nl] ++ u "content".

(** A source whose file name is clean but whose directory is not. *)
Definition audit_dir_source : text := u "/mnt/development/argus_audit/README.md".

(** The errors [validateFile] pushes for a junk file name. *)
Definition junk_prefix : text := u "Junk doc detected: ".
Definition is_junk_error (e : text) : bool := is_prefix junk_prefix e.

(** Induction over file trees, with the property known for every entry of
    a directory. *)
Section node_ind.
Variable P : node -> Prop.
Hypothesis HFile : forall name content, P (File name content).
Hypothesis HDir : forall name items, Forall P items -> P (Dir name items).
Fixpoint node_ind' (n : node) : P n :=
  match n with
  | File name content => HFile name content
  | Dir name items =>
      HDir name items
        ((fix go (l : list node) : Forall P l :=
            match l with
            | [] => @List.Forall_nil _ P
            | x :: l' => @List.Forall_cons _ P x l' (node_ind' x) (go l')
            end) items)
  end.
End node_ind.





(** A small working directory: one file under an allowed root, one under
    another directory, the top-level [index.md] and [README.md]. *)
Definition sample_tree : list node :=
  [Dir (u "guide") [File (u "a.md") (u "x")]; Dir (u "notes") [File (u "b.md") (u "y")];
   File (u "index.md") (u "z"); File (u "README.md") (u "w")].

(** The lines [validate] prints for one checked file, and the total count
    of errors over the checked files. *)
Definition report (vf : text -> text -> list text) (file : text * text) : list text :=
  let errors := vf file.1 file.2 in
  if (0 <? length errors)%nat then header_line file.1 :: map error_line errors else [].

Definition total_errors (vf : text -> text -> list text) (files : list (text * text)) : nat :=
  fold_right (fun file n => (length (vf file.1 file.2) + n)%nat) 0%nat files.

(** A working directory holding a dot-directory whose name ends in [.md]
    and a junk file. *)
Definition dot_md_dir_tree : list node :=
  [Dir (u ".drafts.md") []; File (u "SESSION.md") (u "x")].







(** A host where two of the seven approved sources exist and the working
    directory [/srv/docs] has its [guide] directory. *)
Definition sample_fs : gmap text Sync.fentry :=
  <[u "/srv/docs" := Sync.DirE]>
  (<[u "/srv/docs/guide" := Sync.DirE]>
   (<[u "/mnt/development/README.md" := Sync.FileE (u "# Readme")]>
    (<[u "/mnt/development/CODING_GUIDELINES.md" := Sync.FileE (u "# Rules")]> ∅))).

(** The two kinds of progress lines [syncDocs] prints before its summary. *)
Definition is_blocked_line (l : text) : bool := is_prefix ([cross_mark] ++ u " Blocked: ") l.
Definition is_synced_line (l : text) : bool := is_prefix ([check_mark] ++ u " Synced: ") l.

(** * Properties *)

(** ** Text lemmas *)

Lemma is_prefix_app_l (p l r : text) :
  (length p <= length l)%nat -> is_prefix p (l ++ r) = is_prefix p l.
Proof.
  revert l. induction p as [|a p IH]; intros [|b l] Hl; simpl in *; try lia; auto.
  rewrite IH by lia. reflexivity.
Qed.

Lemma is_prefix_self (p r : text) : is_prefix p (p ++ r) = true.
Proof. induction p as [|a p IH]; simpl; [done|]. by rewrite N.eqb_refl, IH. Qed.

Lemma includes_cons (x : N) (s p : text) :
  includes (x :: s) p = is_prefix p (x :: s) || includes s p.
Proof. reflexivity. Qed.

Lemma dashes_eq : u "---" = [dash; dash; dash].
Proof. reflexivity. Qed.

(** ** [content.split('---')] *)

(** Without a separator occurrence the rest is one piece. *)
Lemma split_dashes_aux_none (fuel : nat) (s acc : text) :
  includes s (u "---") = false ->
  Loose.split_dashes_aux fuel s acc = [rev acc ++ s].
Proof.
  revert s acc. induction fuel as [|f IH]; intros s acc H; [reflexivity|].
  destruct s as [|x s']; cbn [Loose.split_dashes_aux]; [by rewrite app_nil_r|].
  rewrite includes_cons in H. apply orb_false_iff in H as [H1 H2].
  rewrite H1, IH by done. simpl. by rewrite <- app_assoc.
Qed.

(** The piece ends at the first occurrence of the separator. *)
Lemma split_dashes_aux_first (fuel : nat) (pre post acc : text) :
  includes (pre ++ u "--") (u "---") = false ->
  (length pre < fuel)%nat ->
  Loose.split_dashes_aux fuel (pre ++ u "---" ++ post) acc
  = (rev acc ++ pre) :: Loose.split_dashes_aux (fuel - S (length pre)) post [].
Proof.
  revert fuel acc. induction pre as [|x pre IH]; intros fuel acc H Hf.
  - destruct fuel as [|f]; [simpl in Hf; lia|].
    simpl. rewrite app_nil_r. f_equal. f_equal. lia.
  - destruct fuel as [|f]; [simpl in Hf; lia|].
    simpl app in H. rewrite includes_cons in H. apply orb_false_iff in H as [H1 H2].
    cbn [Loose.split_dashes_aux app].
    rewrite <- (is_prefix_app_l _ (x :: pre ++ u "--") (u "-" ++ post)) in H1
      by (simpl; rewrite length_app; simpl; lia).
    replace ((x :: pre ++ u "--") ++ u "-" ++ post) with (x :: pre ++ u "---" ++ post) in H1
      by (simpl; rewrite <- app_assoc; reflexivity).
    rewrite H1, IH by (simpl in Hf; auto with lia).
    simpl. rewrite <- app_assoc. simpl. repeat f_equal; lia.
Qed.

(** [/W/i.test(s)]: a case-insensitive occurrence of [W] anywhere in [s]. *)
Lemma is_prefix_ci_spec (w s : text) :
  is_prefix_ci w s = true <-> exists mid post, s = mid ++ post /\ map canon mid = map canon w.
Proof.
  revert s. induction w as [|a w IH]; intros s; simpl.
  - split; [intros _; by exists [], s|done].
  - destruct s as [|b s]; simpl.
    + split; [done|]. intros (mid & post & Hs & Hm).
      destruct mid; simpl in *; [discriminate|]. discriminate.
    + rewrite andb_true_iff, IH. unfold eqb_ci. rewrite N.eqb_eq. split.
      * intros [Hab (mid & post & -> & Hm)]. exists (b :: mid), post. simpl. by rewrite Hab, Hm.
      * intros (mid & post & Hs & Hm). destruct mid as [|c mid]; simpl in *; [discriminate|].
        injection Hs as -> ->. injection Hm as Hc Hm. split; [done|]. by exists mid, post.
Qed.

Lemma test_ci_word_spec (w s : text) :
  test_ci_word w s = true <->
  exists pre mid post, s = pre ++ mid ++ post /\ map canon mid = map canon w.
Proof.
  induction s as [|x s IH]; simpl; rewrite orb_true_iff, is_prefix_ci_spec.
  - split.
    + intros [(mid & post & Hs & Hm)|Hf]; [|discriminate].
      exists [], mid, post. split; assumption.
    + intros (pre & mid & post & Hs & Hm). left. exists mid, post.
      destruct pre; [split; assumption|discriminate].
  - rewrite IH. split.
    + intros [(mid & post & Hs & Hm)|(pre & mid & post & Hs & Hm)].
      * exists [], mid, post. split; assumption.
      * exists (x :: pre), mid, post. rewrite Hs. split; reflexivity || assumption.
    + intros (pre & mid & post & Hs & Hm). destruct pre as [|y pre]; simpl in Hs.
      * left. exists mid, post. split; assumption.
      * right. injection Hs as -> ->. exists pre, mid, post. split; reflexivity || assumption.
Qed.

Lemma split_dashes_aux_sep (f : nat) (rest acc : text) :
  Loose.split_dashes_aux (S f) (u "---" ++ rest) acc
  = rev acc :: Loose.split_dashes_aux f rest [].
Proof.
  change (u "---" ++ rest) with (dash :: (u "--" ++ rest)).
  cbn [Loose.split_dashes_aux].
  change (is_prefix (u "---") (dash :: u "--" ++ rest))
    with (is_prefix (u "---") (u "---" ++ rest)).
  rewrite is_prefix_self. reflexivity.
Qed.

Lemma split_dashes_lead (rest : text) :
  Loose.split_dashes (u "---" ++ rest)
  = [] :: Loose.split_dashes_aux (S (S (S (length rest)))) rest [].
Proof.
  unfold Loose.split_dashes. rewrite length_app.
  change (length (u "---")) with 3%nat. simpl plus.
  rewrite split_dashes_aux_sep. reflexivity.
Qed.

(** ** C10: the loose Validator's frontmatter is the text between the first
    two occurrences of [---] *)

(** C10. For content starting with [---], the loose Validator checks the
    text up to the next occurrence of [---] anywhere (not only on a line of
    its own); when there is no further [---], it checks the whole rest of
    the file and reports no unterminated block, so a [title:] anywhere in
    the body satisfies the check. *)
Theorem loose_frontmatter_between_dashes :
  (forall pre post : text,
     includes (pre ++ u "--") (u "---") = false ->
     nth 1 (Loose.split_dashes (u "---" ++ pre ++ u "---" ++ post)) [] = pre) /\
  (forall rest : text,
     includes rest (u "---") = false ->
     nth 1 (Loose.split_dashes (u "---" ++ rest)) [] = rest) /\
  (forall filepath rest : text,
     includes rest (u "---") = false ->
     includes rest (u "title:") = true ->
     Loose.validateFile filepath (u "---" ++ rest)
     = if existsb (fun p => Loose.test p (pop (split_char slash filepath))) Loose.JUNK_PATTERNS
       then [u "Junk doc detected: " ++ pop (split_char slash filepath)] else []).
Proof.
  assert (Hnone : forall rest, includes rest (u "---") = false ->
            nth 1 (Loose.split_dashes (u "---" ++ rest)) [] = rest).
  { intros rest H. rewrite split_dashes_lead, split_dashes_aux_none by done. reflexivity. }
  split; [|split].
  - intros pre post H. rewrite split_dashes_lead.
    rewrite split_dashes_aux_first by (try done; rewrite !length_app; lia).
    reflexivity.
  - exact Hnone.
  - intros filepath rest H Ht. unfold Loose.validateFile.
    change (startsWith (u "---" ++ rest) (u "---")) with (is_prefix (u "---") (u "---" ++ rest)).
    rewrite is_prefix_self, Hnone by done. cbn [flat_map Loose.REQUIRED_FRONTMATTER].
    change (u "title" ++ u ":") with (u "title:"). rewrite Ht. cbn [app]. by rewrite app_nil_r.
Qed.

Lemma loose_frontmatter_between_dashes_witness :
  nth 1 (Loose.split_dashes (u "---" ++ u "title: a" ++ u "---" ++ u "body")) [] = u "title: a" /\
  nth 1 (Loose.split_dashes (u "---" ++ u "intro title: b")) [] = u "intro title: b" /\
  Loose.validateFile (u "guide/a.md") (u "---" ++ [nl] ++ u "# Intro" ++ [nl] ++ u "title: b") = [].
Proof.
  destruct loose_frontmatter_between_dashes as (H1 & H2 & H3). split; [|split].
  - apply H1. vm_compute. reflexivity.
  - apply H2. vm_compute. reflexivity.
  - rewrite H3; vm_compute; reflexivity.
Defined.

(** ** C5: the file [---\n---\ncontent] *)


(** C5 (as amended). With a clean filename, the loose Validator reports
    exactly [Missing frontmatter: title] for [---\n---\ncontent]; the
    strict Validator does not recognise an empty block written this way
    (its pattern needs [\n---] after the opening [---\n]) and reports
    [Missing frontmatter block]. *)
Theorem empty_block_file_errors :
  (forall filepath : text,
     existsb (fun p => Loose.test p (pop (split_char slash filepath))) Loose.JUNK_PATTERNS = false ->
     Loose.validateFile filepath empty_block_file = [u "Missing frontmatter: title"]) /\
  (forall relPath : text,
     existsb (fun w => test_ci_word w (pop (split_char slash relPath))) Strict.JUNK_PATTERNS = false ->
     Strict.validateFile relPath empty_block_file = [u "Missing frontmatter block"]).
Proof.
  split.
  - intros filepath H. unfold Loose.validateFile. cbv zeta. rewrite H. reflexivity.
  - intros relPath H. unfold Strict.validateFile. cbv zeta. rewrite H. reflexivity.
Qed.

Lemma empty_block_file_errors_witness :
  Loose.validateFile (u "guide/intro.md") empty_block_file = [u "Missing frontmatter: title"] /\
  Strict.validateFile (u "guide/intro.md") empty_block_file = [u "Missing frontmatter block"].
Proof.
  destruct empty_block_file_errors as [H1 H2].
  split; [apply H1 | apply H2]; vm_compute; reflexivity.
Defined.

(** C5 fails for the strict Validator: on a clean filename it does not
    report [Missing frontmatter: title]. *)
Lemma empty_block_file_strict_counterexample :
  Strict.validateFile (u "guide/intro.md") empty_block_file = [u "Missing frontmatter block"] /\
  ~ In (u "Missing frontmatter: title") (Strict.validateFile (u "guide/intro.md") empty_block_file).
Proof.
  split; [reflexivity|]. vm_compute. intros [H|[]]. discriminate.
Qed.

(** ** C2: the Sync Engine tests the whole source path *)


(** C2 (code bug). An entry whose file name [README.md] matches no blocked
    pattern is counted as blocked, and not synced, because [isJunkDoc]
    receives the whole source path and the directory [argus_audit]
    matches [/AUDIT/i]; this holds whatever the file system holds. *)
Theorem sync_blocks_on_directory_name (cwd : text) (m : gmap text Sync.fentry) :
  Sync.isJunkDoc (pop (split_char slash audit_dir_source)) = false /\
  exists st, Sync.syncDocs cwd [(audit_dir_source, u "guide/index.md")] m = Sync.Ok st /\
             Sync.blocked st = 1%nat /\ Sync.synced st = 0%nat /\ Sync.fsys st = m.
Proof.
  split; [reflexivity|]. eexists. split; [reflexivity|]. simpl. auto.
Qed.

(** On the shipped table the whole-path test and the file-name test agree:
    no directory of those paths matches a blocked pattern. *)
Lemma approved_sources_dirs_clean :
  Forall (fun '(source, _) => Sync.isJunkDoc source = Sync.isJunkDoc (pop (split_char slash source)))
         Sync.APPROVED_SOURCES.
Proof. repeat constructor. Qed.

(** ** C9: the blocked count does not depend on the file system *)

Lemma sync_loop_blocked (cwd : text) (es : list (text * text)) (st st' : Sync.state) :
  Sync.sync_loop cwd es st = Sync.Ok st' ->
  Sync.blocked st' = (Sync.blocked st + length (List.filter Sync.isJunkDoc (map fst es)))%nat.
Proof.
  revert st. induction es as [|[source dest] es IH]; intros st H;
    cbn [Sync.sync_loop map List.filter fst] in H |- *.
  - injection H as <-. simpl. lia.
  - destruct (Sync.isJunkDoc source) eqn:Hj; cbn [length].
    + apply IH in H. simpl in H. lia.
    + destruct (Sync.existsSync (Sync.fsys st) source).
      * destruct (Sync.readFileSync (Sync.fsys st) source) as [c|e]; simpl in H; [|discriminate].
        destruct (Sync.writeFileSync (Sync.fsys st) (Sync.join_cwd cwd dest) c) as [m'|e];
          simpl in H; [|discriminate].
        apply IH in H. simpl in H. lia.
      * by apply IH.
Qed.

(** C9. The blocked test runs before the existence check: whenever a run
    completes, its blocked count is the number of mapping entries whose
    source path matches a blocked pattern, whatever the file system. *)
Theorem sync_blocked_count (cwd : text) (sources : list (text * text))
    (m : gmap text Sync.fentry) (st : Sync.state) :
  Sync.syncDocs cwd sources m = Sync.Ok st ->
  Sync.blocked st = length (List.filter Sync.isJunkDoc (map fst sources)).
Proof.
  unfold Sync.syncDocs. destruct (Sync.sync_loop cwd sources (Sync.mkState m 0 0 [])) as [st0|e] eqn:H;
    simpl; [|discriminate].
  intros Hst. injection Hst as <-. simpl. apply sync_loop_blocked in H. simpl in H. lia.
Qed.

Lemma sync_blocked_count_witness :
  Sync.blocked (match Sync.syncDocs (u "/w")
                       [(u "/mnt/development/SESSION_NOTES.md", u "guide/notes.md");
                        (u "/mnt/development/README.md", u "guide/index.md")] ∅ with
                | Sync.Ok st => st | Sync.Throw _ => Sync.mkState ∅ 0 0 [] end) = 1%nat.
Proof.
  apply (sync_blocked_count (u "/w")
           [(u "/mnt/development/SESSION_NOTES.md", u "guide/notes.md");
            (u "/mnt/development/README.md", u "guide/index.md")] ∅).
  reflexivity.
Defined.

(** ** C3: one junk-filename error per blocked filename *)


Lemma strict_fm_errors_not_junk (content : text) :
  List.filter is_junk_error
    (match Strict.extractFrontmatter content with
     | Some fm =>
         if Strict.falsy (Strict.extractFrontmatter content) then [u "Missing frontmatter block"]
         else flat_map (fun field =>
                          if test_line_start (field ++ u ":") fm then []
                          else [u "Missing frontmatter: " ++ field])
                       Strict.REQUIRED_FRONTMATTER
     | None => [u "Missing frontmatter block"]
     end) = [].
Proof.
  destruct (Strict.extractFrontmatter content) as [fm|]; [|reflexivity].
  destruct (Strict.falsy (Some fm)); [reflexivity|].
  cbn [flat_map Strict.REQUIRED_FRONTMATTER].
  destruct (test_line_start (u "title" ++ u ":") fm), (test_line_start (u "description" ++ u ":") fm);
    reflexivity.
Qed.

(** C3 (as amended). A file name that contains a blocked word
    (case-insensitively, anywhere) gets exactly one junk-filename error
    from the strict Validator, whatever the content; the loose Validator,
    whose patterns are [/W\.md$/i] and [/W.*\.md$/i], reports exactly one
    junk error, whatever the content, for the file names one of its
    patterns matches (a blocked word elsewhere in the name is not one). *)
Theorem junk_filename_reported_once :
  (forall relPath content : text,
     (exists w, In w Strict.JUNK_PATTERNS /\
        exists pre mid post, pop (split_char slash relPath) = pre ++ mid ++ post /\
                             map canon mid = map canon w) ->
     length (List.filter is_junk_error (Strict.validateFile relPath content)) = 1%nat) /\
  (forall filepath content : text,
     existsb (fun p => Loose.test p (pop (split_char slash filepath))) Loose.JUNK_PATTERNS = true ->
     length (List.filter is_junk_error (Loose.validateFile filepath content)) = 1%nat).
Proof.
  split.
  - intros relPath content (w & Hw & Hocc).
    assert (Hj : existsb (fun w => test_ci_word w (pop (split_char slash relPath)))
                   Strict.JUNK_PATTERNS = true).
    { apply existsb_exists. exists w. split; [done|]. by apply test_ci_word_spec. }
    unfold Strict.validateFile. cbv zeta. rewrite Hj.
    cbn [app List.filter]. unfold is_junk_error at 1. unfold junk_prefix.
    rewrite is_prefix_self. cbn [length]. by rewrite strict_fm_errors_not_junk.
  - intros filepath content Hj. unfold Loose.validateFile. cbv zeta. rewrite Hj.
    cbn [app List.filter]. unfold is_junk_error at 1. unfold junk_prefix.
    rewrite is_prefix_self. cbn [length].
    destruct (startsWith content (u "---")); [|reflexivity].
    cbn [flat_map Loose.REQUIRED_FRONTMATTER].
    by destruct (includes _ _).
Qed.

Lemma junk_filename_reported_once_witness :
  length (List.filter is_junk_error
            (Strict.validateFile (u "guide/my-status-notes.md") (u "anything"))) = 1%nat /\
  length (List.filter is_junk_error
            (Loose.validateFile (u "guide/SESSION_NOTES.md") (u "---"))) = 1%nat.
Proof.
  destruct junk_filename_reported_once as [H1 H2]. split.
  - apply H1. exists (u "STATUS"). split; [simpl; tauto|].
    exists (u "my-"), (u "status"), (u "-notes.md"). split; reflexivity.
  - apply H2. vm_compute. reflexivity.
Defined.

(** C3 fails for the loose Validator: [status-notes.md] and
    [SUMMARY-2024.md] contain blocked words, but no loose pattern matches
    them, so a file with either name and no frontmatter gets no error. *)
Lemma junk_filename_loose_counterexample :
  test_ci_word (u "STATUS") (u "status-notes.md") = true /\
  Loose.validateFile (u "guide/status-notes.md") (u "# Notes") = [] /\
  test_ci_word (u "SUMMARY") (u "SUMMARY-2024.md") = true /\
  Loose.validateFile (u "guide/SUMMARY-2024.md") (u "# Notes") = [].
Proof. vm_compute. repeat split. Qed.

(** ** C1: files without a leading frontmatter block *)

Lemma is_prefix_spec (p s : text) : is_prefix p s = true <-> exists r, s = p ++ r.
Proof.
  revert s. induction p as [|a p IH]; intros [|b s]; simpl.
  - split; [intros _; by exists []|done].
  - split; [intros _; by exists (b :: s)|done].
  - split; [done|]. intros [r Hr]. discriminate.
  - rewrite andb_true_iff, N.eqb_eq, IH. split.
    + intros [-> [r ->]]. by exists r.
    + intros [r Hr]. injection Hr as -> ->. split; [done|]. by exists r.
Qed.

Lemma find_close_none (s acc : text) :
  (forall g rest, s <> g ++ nl :: u "---" ++ rest) -> Strict.find_close s acc = None.
Proof.
  revert acc. induction s as [|c s IH]; intros acc H; [reflexivity|].
  cbn [Strict.find_close].
  destruct (is_prefix (nl :: u "---") (c :: s)) eqn:Hp.
  - exfalso. apply is_prefix_spec in Hp as [r Hr]. by apply (H [] r).
  - apply IH. intros g rest Hs. apply (H (c :: g) rest). by rewrite Hs.
Qed.

(** [extractFrontmatter] finds no block when the content is not
    [---\n], some text, [\n---], and the rest. *)
Lemma extractFrontmatter_none (content : text) :
  ~ (exists g rest, content = u "---" ++ nl :: g ++ nl :: u "---" ++ rest) ->
  Strict.extractFrontmatter content = None.
Proof.
  intros H. unfold Strict.extractFrontmatter.
  destruct (is_prefix (u "---" ++ [nl]) content) eqn:Hp; [|reflexivity].
  apply is_prefix_spec in Hp as [r ->].
  change (drop 4 ((u "---" ++ [nl]) ++ r)) with r.
  apply find_close_none. intros g rest Hr. apply H. exists g, rest.
  rewrite Hr. reflexivity.
Qed.

(** C1 (as amended). The strict Validator reports [Missing frontmatter
    block], and no missing-field error, for every file whose content does
    not start with a [---\n ... \n---] block; the loose Validator reports
    no frontmatter error of any kind for a file whose content does not
    start with [---] (it checks fields only when it does). *)
Theorem missing_block_reported :
  (forall relPath content : text,
     ~ (exists g rest, content = u "---" ++ nl :: g ++ nl :: u "---" ++ rest) ->
     Strict.validateFile relPath content
     = (if existsb (fun w => test_ci_word w (pop (split_char slash relPath))) Strict.JUNK_PATTERNS
        then [u "Junk doc detected: " ++ pop (split_char slash relPath)] else [])
       ++ [u "Missing frontmatter block"]) /\
  (forall filepath content : text,
     startsWith content (u "---") = false ->
     Loose.validateFile filepath content
     = if existsb (fun p => Loose.test p (pop (split_char slash filepath))) Loose.JUNK_PATTERNS
       then [u "Junk doc detected: " ++ pop (split_char slash filepath)] else []).
Proof.
  split.
  - intros relPath content H. unfold Strict.validateFile. cbv zeta.
    by rewrite extractFrontmatter_none.
  - intros filepath content H. unfold Loose.validateFile. cbv zeta.
    rewrite H. by rewrite app_nil_r.
Qed.

Lemma missing_block_reported_witness :
  Strict.validateFile (u "guide/intro.md") (u "# Intro") = [u "Missing frontmatter block"] /\
  Loose.validateFile (u "guide/intro.md") (u "# Intro") = [].
Proof.
  destruct missing_block_reported as [H1 H2]. split.
  - rewrite H1; [reflexivity|]. intros (g & rest & Hc). discriminate.
  - rewrite H2; reflexivity.
Defined.

(** C1 fails for the loose Validator: a file with no frontmatter at all
    and a clean name produces no error. *)
Lemma missing_block_loose_counterexample :
  Loose.validateFile (u "guide/intro.md") (u "# Intro") = [].
Proof. reflexivity. Qed.

(** ** C4: required fields *)

Lemma includes_spec (s p : text) : includes s p = true <-> exists a b, s = a ++ p ++ b.
Proof.
  induction s as [|x s IH]; cbn [includes]; rewrite orb_true_iff, is_prefix_spec.
  - split.
    + intros [[r Hr]|Hf]; [|discriminate]. by exists [], r.
    + intros (a & b & Hs). left. exists b. destruct a; [done|discriminate].
  - rewrite IH. split.
    + intros [[r Hr]|(a & b & Hs)].
      * by exists [], r.
      * exists (x :: a), b. by rewrite Hs.
    + intros (a & b & Hs). destruct a as [|y a]; simpl in Hs.
      * left. by exists b.
      * right. injection Hs as -> ->. by exists a, b.
Qed.

Lemma after_line_terminator_spec (p s : text) :
  after_line_terminator p s = true <->
  exists a c r, s = a ++ c :: p ++ r /\ is_line_terminator c = true.
Proof.
  induction s as [|x s IH]; cbn [after_line_terminator].
  - split; [done|]. intros (a & c & r & Hs & _). destruct a; discriminate.
  - rewrite orb_true_iff, andb_true_iff, is_prefix_spec, IH. split.
    + intros [[Hx [r ->]]|(a & c & r & -> & Hc)].
      * by exists [], x, r.
      * by exists (x :: a), c, r.
    + intros (a & c & r & Hs & Hc). destruct a as [|y a]; simpl in Hs; injection Hs as -> Hs.
      * left. split; [done|]. by exists r.
      * right. by exists a, c, r.
Qed.

(** [/^P/m.test(s)]: [P] begins [s] or follows a line terminator. *)
Lemma test_line_start_spec (p s : text) :
  test_line_start p s = true <->
  (exists r, s = p ++ r) \/
  (exists a c r, s = a ++ c :: p ++ r /\ is_line_terminator c = true).
Proof.
  unfold test_line_start. by rewrite orb_true_iff, is_prefix_spec, after_line_terminator_spec.
Qed.

(** C4 (as amended). Strict Validator, non-empty extracted block [fm]: each
    required field is accepted iff [field:] begins [fm] or follows a line
    terminator in it, and each field not accepted gives its own error.
    Loose Validator: the only required field [title] is accepted iff
    [title:] occurs anywhere in the text between the first two [---]. *)
Theorem required_fields_checked :
  (forall relPath content fm : text,
     Strict.extractFrontmatter content = Some fm -> fm <> [] ->
     Strict.validateFile relPath content
     = (if existsb (fun w => test_ci_word w (pop (split_char slash relPath))) Strict.JUNK_PATTERNS
        then [u "Junk doc detected: " ++ pop (split_char slash relPath)] else [])
       ++ flat_map (fun field =>
                      if test_line_start (field ++ u ":") fm then []
                      else [u "Missing frontmatter: " ++ field])
                   Strict.REQUIRED_FRONTMATTER) /\
  (forall field fm : text,
     test_line_start (field ++ u ":") fm = true <->
     (exists r, fm = (field ++ u ":") ++ r) \/
     (exists a c r, fm = a ++ c :: (field ++ u ":") ++ r /\ is_line_terminator c = true)) /\
  (forall filepath content : text,
     startsWith content (u "---") = true ->
     Loose.validateFile filepath content
     = (if existsb (fun p => Loose.test p (pop (split_char slash filepath))) Loose.JUNK_PATTERNS
        then [u "Junk doc detected: " ++ pop (split_char slash filepath)] else [])
       ++ (if includes (nth 1 (Loose.split_dashes content) []) (u "title:")
           then [] else [u "Missing frontmatter: title"])) /\
  (forall s p : text, includes s p = true <-> exists a b, s = a ++ p ++ b).
Proof.
  split; [|split; [|split]].
  - intros relPath content fm Hfm Hne. unfold Strict.validateFile. cbv zeta.
    rewrite Hfm. destruct fm as [|x fm]; [done|]. reflexivity.
  - intros field fm. exact (test_line_start_spec (field ++ u ":") fm).
  - intros filepath content Hs. unfold Loose.validateFile. cbv zeta. rewrite Hs.
    cbn [flat_map Loose.REQUIRED_FRONTMATTER]. by rewrite app_nil_r.
  - exact includes_spec.
Qed.

Lemma required_fields_checked_witness :
  Strict.validateFile (u "guide/a.md") (u "---" ++ [nl] ++ u "subtitle: x" ++ [nl] ++ u "---")
  = [u "Missing frontmatter: title"; u "Missing frontmatter: description"] /\
  test_line_start (u "title" ++ u ":") (u "a: b" ++ [13%N] ++ u "title: c") = true /\
  Loose.validateFile (u "guide/a.md") (u "---" ++ [nl] ++ u "subtitle: x" ++ [nl] ++ u "---") = [].
Proof.
  destruct required_fields_checked as (H1 & H2 & H3 & H4). split; [|split].
  - rewrite (H1 _ _ (u "subtitle: x")); [reflexivity|reflexivity|discriminate].
  - apply H2. right. exists (u "a: b"), 13%N, (u " c"). split; reflexivity.
  - rewrite H3; reflexivity.
Defined.

(** C4 fails: the loose Validator accepts [title] from the key [subtitle:];
    the strict Validator extracts an empty block from [---\n\n---] and
    reports no per-field error for it. *)
Lemma required_fields_counterexample :
  Loose.validateFile (u "guide/a.md") (u "---" ++ [nl] ++ u "subtitle: x" ++ [nl] ++ u "---") = [] /\
  Strict.extractFrontmatter (u "---" ++ [nl; nl] ++ u "---") = Some [] /\
  Strict.validateFile (u "guide/a.md") (u "---" ++ [nl; nl] ++ u "---")
  = [u "Missing frontmatter block"].
Proof. split; [|split]; reflexivity. Qed.

(** ** C6: the root allowlist of the strict walk *)





Lemma find_dir (pre : list text) (item : text) (items : list node) :
  StrictWalk.find pre (Dir item items)
  = if StrictWalk.has Strict.IGNORE_DIRS item || startsWith item (u ".") then []
    else flat_map (StrictWalk.find (pre ++ [item])) items.
Proof.
  cbn [StrictWalk.find]. destruct (_ || _); [reflexivity|].
  induction items as [|x l IH]; [reflexivity|]. cbn [flat_map]. by rewrite <- IH.
Qed.







(** ** C8: one pass over all files, exit status and summary line *)

Lemma run_all (vf : text -> text -> list text) (files : list (text * text))
    (out : list text) (t : nat) :
  run vf (map (fun '(p, c) => (p, Some c)) files) out t
  = let n := (t + total_errors vf files)%nat in
    if (0 <? n)%nat
    then Exited (out ++ concat (map (report vf) files) ++ [failed_line n]) 1
    else Exited (out ++ concat (map (report vf) files) ++ [validated_line]) 0.
Proof.
  revert out t. induction files as [|[p c] files IH]; intros out t.
  - unfold total_errors. cbn [map run concat fold_right app]. by rewrite Nat.add_0_r.
  - change (total_errors vf ((p, c) :: files)) with (length (vf p c) + total_errors vf files)%nat.
    cbn [map run concat].
    change (report vf (p, c))
      with (if (0 <? length (vf p c))%nat then header_line p :: map error_line (vf p c) else []).
    destruct (0 <? length (vf p c))%nat eqn:Hl.
    + rewrite IH. cbn zeta. rewrite Nat.add_assoc, <- !app_assoc. reflexivity.
    + apply Nat.ltb_ge in Hl. assert (length (vf p c) = 0%nat) as -> by lia.
      rewrite IH. cbn zeta. by rewrite Nat.add_0_l.
Qed.

(** The strict Validator meets the claim on every tree: every collected
    file is checked, each file with errors prints its header and errors,
    and the exit status and summary follow the total error count. *)
Lemma strict_validate_one_pass (cwd_items : list node) :
  StrictWalk.validate cwd_items
  = let files := StrictWalk.findMarkdownFiles cwd_items in
    let n := total_errors Strict.validateFile files in
    if (0 <? n)%nat
    then Exited (concat (map (report Strict.validateFile) files) ++ [failed_line n]) 1
    else Exited (concat (map (report Strict.validateFile) files) ++ [validated_line]) 0.
Proof. unfold StrictWalk.validate. by rewrite run_all. Qed.

(** C8 (code bug in the loose Validator). Its walk treats a directory whose
    name starts with ['.'] and ends in [.md] as a markdown file, and
    [readFileSync] on it throws: the run stops before the later junk file
    is checked and prints no summary.  Even with no validation error at
    all the run throws instead of exiting 0 with the success line; the
    strict walk skips such directories. *)
Theorem loose_validate_dot_md_dir :
  LooseWalk.findMarkdownFiles dot_md_dir_tree
  = [(u ".drafts.md", Dir (u ".drafts.md") []); (u "SESSION.md", File (u "SESSION.md") (u "x"))] /\
  LooseWalk.validate dot_md_dir_tree = Threw [] /\
  Loose.validateFile (u "SESSION.md") (u "x") = [u "Junk doc detected: SESSION.md"] /\
  LooseWalk.validate [Dir (u ".drafts.md") []] = Threw [] /\
  StrictWalk.validate [Dir (u ".drafts.md") []] = Exited [validated_line] 0.
Proof. repeat split; reflexivity. Qed.

(** ** C7: missing sources are skipped *)









(** * Further properties of the three scripts *)

(** ** [validateFile]: only the base name of the path matters *)

Lemma split_char_aux_not_nil (c : N) (s acc : text) : split_char_aux c s acc <> [].
Proof.
  revert acc. induction s as [|x s IH]; intros acc; cbn [split_char_aux]; [done|].
  destruct (x =? c)%N; [done|apply IH].
Qed.

Lemma last_split_char_sep (c : N) (s y acc : text) :
  List.last (split_char_aux c (s ++ c :: y) acc) [] = List.last (split_char_aux c y []) [].
Proof.
  revert acc. induction s as [|x s IH]; intros acc; cbn [app split_char_aux].
  - rewrite N.eqb_refl. pose proof (split_char_aux_not_nil c y []) as Hne.
    destruct (split_char_aux c y []); [done|]. reflexivity.
  - destruct (x =? c)%N; [|apply IH].
    rewrite <- (IH []). pose proof (split_char_aux_not_nil c (s ++ c :: y) []) as Hne.
    destruct (split_char_aux c (s ++ c :: y) []); [done|]. reflexivity.
Qed.

(** Both Validators judge a file by its base name and its content: the
    directories of the path never change the errors. *)
Theorem validateFile_base_name (dir name content : text) :
  Loose.validateFile (dir ++ slash :: name) content = Loose.validateFile name content /\
  Strict.validateFile (dir ++ slash :: name) content = Strict.validateFile name content.
Proof.
  assert (Hp : pop (split_char slash (dir ++ slash :: name)) = pop (split_char slash name)).
  { unfold pop, split_char. apply last_split_char_sep. }
  unfold Loose.validateFile, Strict.validateFile. by rewrite Hp.
Qed.

(** ** [extractFrontmatter]: the shortest block *)

Lemma find_close_step (s acc : text) :
  Strict.find_close s acc
  = if is_prefix (nl :: u "---") s then Some (rev acc)
    else match s with [] => None | c :: s' => Strict.find_close s' (c :: acc) end.
Proof. destruct s; reflexivity. Qed.

Lemma find_close_sound (s acc r : text) :
  Strict.find_close s acc = Some r ->
  exists g rest, r = rev acc ++ g /\ s = g ++ nl :: u "---" ++ rest /\
    forall g' rest', s = g' ++ nl :: u "---" ++ rest' -> (length g <= length g')%nat.
Proof.
  revert acc. induction s as [|c s IH]; intros acc H; rewrite find_close_step in H.
  - discriminate.
  - destruct (is_prefix (nl :: u "---") (c :: s)) eqn:Hp.
    + injection H as <-. apply is_prefix_spec in Hp as [rest Hr].
      exists [], rest. split; [by rewrite app_nil_r|]. split; [exact Hr|].
      intros; simpl; lia.
    + apply IH in H as (g & rest & -> & Hs & Hmin).
      exists (c :: g), rest. split; [cbn [rev]; by rewrite <- app_assoc|].
      split; [by rewrite Hs|].
      intros [|c' g'] rest' Heq.
      * exfalso. pose proof (is_prefix_self (nl :: u "---") rest') as Hq.
        cbn [app] in Hq, Heq. rewrite Heq, Hq in Hp. discriminate.
      * cbn [app] in Heq. injection Heq as -> Heq. cbn [length].
        specialize (Hmin g' rest' Heq). lia.
Qed.

Lemma find_close_some (g rest acc : text) :
  is_Some (Strict.find_close (g ++ nl :: u "---" ++ rest) acc).
Proof.
  revert acc. induction g as [|c g IH]; intros acc; rewrite find_close_step.
  - pose proof (is_prefix_self (nl :: u "---") rest) as Hq. cbn [app] in Hq |- *.
    rewrite Hq. eauto.
  - destruct (is_prefix _ _); [eauto|]. cbn [app]. apply IH.
Qed.

(** The strict Validator's block is the shortest text between the opening
    [---\n] and a following [\n---]: [extractFrontmatter] returns [fm]
    exactly when the content is [---\n], [fm], [\n---], the rest, and no
    shorter text closes the block. *)
Theorem extractFrontmatter_shortest (content fm : text) :
  Strict.extractFrontmatter content = Some fm <->
  (exists rest, content = u "---" ++ nl :: fm ++ nl :: u "---" ++ rest) /\
  (forall g rest, content = u "---" ++ nl :: g ++ nl :: u "---" ++ rest ->
                  (length fm <= length g)%nat).
Proof.
  unfold Strict.extractFrontmatter. split.
  - destruct (is_prefix (u "---" ++ [nl]) content) eqn:Hp; [|discriminate].
    apply is_prefix_spec in Hp as [r ->]. change (drop 4 ((u "---" ++ [nl]) ++ r)) with r.
    intros H. apply find_close_sound in H as (g & rest & Hfm & Hr & Hmin).
    cbn [rev app] in Hfm. subst g. split.
    + exists rest. rewrite Hr, <- app_assoc. reflexivity.
    + intros g' rest' Heq. apply (Hmin g' rest').
      rewrite <- app_assoc in Heq. apply app_inv_head in Heq.
      cbn [app] in Heq. by injection Heq.
  - intros [[rest Hc] Hmin]. subst content.
    assert (Hs : u "---" ++ nl :: fm ++ nl :: u "---" ++ rest
                 = (u "---" ++ [nl]) ++ (fm ++ nl :: u "---" ++ rest))
      by (rewrite <- app_assoc; reflexivity).
    rewrite Hs, is_prefix_self.
    change (drop 4 ((u "---" ++ [nl]) ++ (fm ++ nl :: u "---" ++ rest)))
      with (fm ++ nl :: u "---" ++ rest).
    destruct (find_close_some fm rest []) as [r Hr]. rewrite Hr.
    apply find_close_sound in Hr as (g & rest' & Hg & Heq & Hmin').
    cbn [rev app] in Hg. subst g.
    assert (Hle1 : (length r <= length fm)%nat) by (apply (Hmin' fm rest); reflexivity).
    assert (Hle2 : (length fm <= length r)%nat).
    { apply (Hmin r rest'). rewrite Hs, Heq, <- app_assoc. reflexivity. }
    destruct (app_inj_1 fm r _ _ ltac:(lia) Heq) as [-> _]. reflexivity.
Qed.

Lemma extractFrontmatter_shortest_witness :
  exists rest, u "---" ++ [nl] ++ u "title: a" ++ [nl] ++ u "---" ++ [nl] ++ u "---"
               = u "---" ++ nl :: u "title: a" ++ nl :: u "---" ++ rest.
Proof.
  apply (proj1 (extractFrontmatter_shortest
                  (u "---" ++ [nl] ++ u "title: a" ++ [nl] ++ u "---" ++ [nl] ++ u "---")
                  (u "title: a"))).
  reflexivity.
Defined.

(** ** The walks *)

Lemma loose_find_dir (pre : list text) (item : text) (items : list node) :
  LooseWalk.find pre (Dir item items)
  = if negb (startsWith item (u ".")) then flat_map (LooseWalk.find (pre ++ [item])) items
    else if endsWith item (u ".md") then [(path_of pre item, Dir item items)] else [].
Proof.
  cbn [LooseWalk.find]. destruct (negb _); [|reflexivity].
  induction items as [|x l IH]; [reflexivity|]. cbn [flat_map]. by rewrite <- IH.
Qed.

Lemma loose_find_sound (t : node) :
  forall pre p n, In (p, n) (LooseWalk.find pre t) ->
  exists cs, p = path_of (pre ++ cs) (node_name n) /\
    Forall (fun d => startsWith d (u ".") = false) cs /\
    endsWith (node_name n) (u ".md") = true /\
    match n with Dir name _ => startsWith name (u ".") = true | File _ _ => True end.
Proof.
  induction t as [name content|name items Hitems] using node_ind'; intros pre p n Hin.
  - cbn [LooseWalk.find] in Hin. destruct (endsWith name (u ".md")) eqn:Hmd; [|done].
    destruct Hin as [Hin|[]]. injection Hin as <- <-.
    exists []. rewrite app_nil_r. auto.
  - rewrite loose_find_dir in Hin. destruct (startsWith name (u ".")) eqn:Hd; cbn [negb] in Hin.
    + destruct (endsWith name (u ".md")) eqn:Hmd; [|done].
      destruct Hin as [Hin|[]]. injection Hin as <- <-.
      exists []. rewrite app_nil_r. auto.
    + apply in_flat_map in Hin as (x & Hx & Hin).
      rewrite List.Forall_forall in Hitems.
      destruct (Hitems x Hx (pre ++ [name]) p n Hin) as (cs & Hp & Hcs & Hmd & Hdir).
      exists (name :: cs). rewrite <- app_assoc in Hp. split; [exact Hp|].
      split; [by constructor|]. auto.
Qed.

(** The loose walk collects only entries whose name ends in [.md], never
    descends into a directory whose name starts with ['.'], and the only
    directories it collects are such dot-directories. *)
Theorem loose_walk_collects (cwd_items : list node) (p : text) (n : node) :
  In (p, n) (LooseWalk.findMarkdownFiles cwd_items) ->
  exists cs, p = path_of cs (node_name n) /\
    Forall (fun d => startsWith d (u ".") = false) cs /\
    endsWith (node_name n) (u ".md") = true /\
    match n with Dir name _ => startsWith name (u ".") = true | File _ _ => True end.
Proof.
  unfold LooseWalk.findMarkdownFiles. intros Hin.
  apply in_flat_map in Hin as (t & _ & Hin). exact (loose_find_sound t [] p n Hin).
Qed.

Lemma loose_walk_collects_witness :
  exists cs, u ".drafts.md" = path_of cs (node_name (Dir (u ".drafts.md") [])) /\
    Forall (fun d => startsWith d (u ".") = false) cs /\
    endsWith (node_name (Dir (u ".drafts.md") [])) (u ".md") = true /\
    startsWith (u ".drafts.md") (u ".") = true.
Proof.
  apply (loose_walk_collects dot_md_dir_tree (u ".drafts.md") (Dir (u ".drafts.md") [])).
  left. reflexivity.
Defined.

Lemma strict_find_sound (t : node) :
  forall pre p c, In (p, c) (StrictWalk.find pre t) ->
  exists cs name, p = path_of (pre ++ cs) name /\
    Forall (fun d => StrictWalk.has Strict.IGNORE_DIRS d = false /\ startsWith d (u ".") = false) cs /\
    endsWith name (u ".md") = true /\ StrictWalk.shouldValidate p = true.
Proof.
  induction t as [name content|name items Hitems] using node_ind'; intros pre p c Hin.
  - cbn [StrictWalk.find] in Hin. destruct (endsWith name (u ".md")) eqn:Hmd; [|done].
    destruct (StrictWalk.shouldValidate (path_of pre name)) eqn:Hv; [|done].
    destruct Hin as [Hin|[]]. injection Hin as <- <-.
    exists [], name. rewrite app_nil_r. auto.
  - rewrite find_dir in Hin.
    destruct (StrictWalk.has Strict.IGNORE_DIRS name) eqn:Hi; [done|].
    destruct (startsWith name (u ".")) eqn:Hd; [done|]. cbn [orb] in Hin.
    apply in_flat_map in Hin as (x & Hx & Hin).
    rewrite List.Forall_forall in Hitems.
    destruct (Hitems x Hx (pre ++ [name]) p c Hin) as (cs & n & Hp & Hcs & Hmd & Hv).
    exists (name :: cs), n. rewrite <- app_assoc in Hp. split; [exact Hp|].
    split; [by constructor|]. auto.
Qed.

(** The strict walk collects only files whose name ends in [.md] and whose
    path passes [shouldValidate], and never descends into [node_modules],
    [.git], [.github], [.vscode] or any directory whose name starts with
    ['.']. *)
Theorem strict_walk_collects (cwd_items : list node) (p c : text) :
  In (p, c) (StrictWalk.findMarkdownFiles cwd_items) ->
  exists cs name, p = path_of cs name /\
    Forall (fun d => StrictWalk.has Strict.IGNORE_DIRS d = false /\ startsWith d (u ".") = false) cs /\
    endsWith name (u ".md") = true /\ StrictWalk.shouldValidate p = true.
Proof.
  unfold StrictWalk.findMarkdownFiles. intros Hin.
  apply in_flat_map in Hin as (t & _ & Hin). exact (strict_find_sound t [] p c Hin).
Qed.

Lemma strict_walk_collects_witness :
  exists cs name, u "guide/a.md" = path_of cs name /\
    Forall (fun d => StrictWalk.has Strict.IGNORE_DIRS d = false /\ startsWith d (u ".") = false) cs /\
    endsWith name (u ".md") = true /\ StrictWalk.shouldValidate (u "guide/a.md") = true.
Proof.
  apply (strict_walk_collects sample_tree (u "guide/a.md") (u "x")).
  vm_compute. left. reflexivity.
Defined.

(** ** The [validate] drivers *)

Lemma run_throws (vf : text -> text -> list text) (files : list (text * option text))
    (out : list text) (t : nat) :
  (exists o, run vf files out t = Threw o) <-> In None (map snd files).
Proof.
  revert out t. induction files as [|[f [c|]] files IH]; intros out t; cbn [run map snd In].
  - split; [|done]. intros [o Ho]. by destruct (0 <? t)%nat.
  - destruct (0 <? length (vf f c))%nat; rewrite IH;
      (split; [intros H; by right|intros [H|H]; [discriminate|exact H]]).
  - split; [intros _; by left|intros _; by exists out].
Qed.

(** The loose [validate] stops with an uncaught exception exactly when its
    walk collects a directory (a dot-directory whose name ends in [.md]). *)
Theorem loose_validate_throws (cwd_items : list node) :
  (exists o, LooseWalk.validate cwd_items = Threw o) <->
  exists p name items, In (p, Dir name items) (LooseWalk.findMarkdownFiles cwd_items).
Proof.
  unfold LooseWalk.validate. rewrite run_throws, map_map. rewrite in_map_iff. split.
  - intros ([p n] & Hn & Hin). destruct n as [name c|name items]; [discriminate|].
    by exists p, name, items.
  - intros (p & name & items & Hin). by exists (p, Dir name items).
Qed.

Lemma total_errors_zero (vf : text -> text -> list text) (files : list (text * text)) :
  total_errors vf files = 0%nat <-> Forall (fun f => vf f.1 f.2 = []) files.
Proof.
  induction files as [|[p c] files IH]; cbn [total_errors fold_right].
  - split; [intros _; constructor|done].
  - change (fold_right (fun file n => (length (vf file.1 file.2) + n)%nat) 0%nat files)
      with (total_errors vf files).
    rewrite List.Forall_cons_iff, <- IH, <- length_zero_iff_nil. cbn [fst snd]. lia.
Qed.

Lemma report_clean (vf : text -> text -> list text) (files : list (text * text)) :
  Forall (fun f => vf f.1 f.2 = []) files -> concat (map (report vf) files) = [].
Proof.
  induction 1 as [|[p c] files Hf _ IH]; [reflexivity|].
  cbn [map concat]. unfold report at 1. cbn [fst snd] in *. by rewrite Hf.
Qed.

(** The strict [validate] prints only the success line and exits 0 when
    every collected file validates cleanly; otherwise it exits 1 with the
    failure line last, carrying the (positive) total error count. *)
Theorem strict_validate_exit (cwd_items : list node) :
  (Forall (fun f => Strict.validateFile f.1 f.2 = []) (StrictWalk.findMarkdownFiles cwd_items) ->
   StrictWalk.validate cwd_items = Exited [validated_line] 0) /\
  (~ Forall (fun f => Strict.validateFile f.1 f.2 = []) (StrictWalk.findMarkdownFiles cwd_items) ->
   exists out, StrictWalk.validate cwd_items
     = Exited (out ++ [failed_line (total_errors Strict.validateFile
                                      (StrictWalk.findMarkdownFiles cwd_items))]) 1 /\
     (0 < total_errors Strict.validateFile (StrictWalk.findMarkdownFiles cwd_items))%nat).
Proof.
  rewrite strict_validate_one_pass. cbv zeta. split.
  - intros Hc. pose proof Hc as Hz. apply total_errors_zero in Hz. rewrite Hz, report_clean by done.
    reflexivity.
  - intros Hc. destruct (0 <? total_errors Strict.validateFile (StrictWalk.findMarkdownFiles cwd_items))%nat
      eqn:Hl.
    + apply Nat.ltb_lt in Hl. eexists. split; [reflexivity|exact Hl].
    + exfalso. apply Hc, total_errors_zero. apply Nat.ltb_ge in Hl. lia.
Qed.

Lemma strict_validate_exit_witness :
  StrictWalk.validate
    [File (u "index.md") (u "---" ++ [nl] ++ u "title: a" ++ [nl] ++ u "description: b" ++ [nl] ++ u "---")]
  = Exited [validated_line] 0 /\
  exists out, StrictWalk.validate sample_tree = Exited (out ++ [failed_line 2]) 1 /\ (0 < 2)%nat.
Proof.
  split.
  - apply (proj1 (strict_validate_exit _)). vm_compute. repeat constructor.
  - apply (proj2 (strict_validate_exit sample_tree)). vm_compute. intros H.
    inversion H as [|? ? Hx _]. discriminate.
Defined.

(** ** The Sync Engine *)

Lemma writeFileSync_ok (m : gmap text Sync.fentry) (p c : text) (m' : gmap text Sync.fentry) :
  Sync.writeFileSync m p c = Sync.Ok m' -> m' = <[p := Sync.FileE c]> m.
Proof.
  unfold Sync.writeFileSync.
  destruct (m !! Sync.dirname p) as [[]|]; try discriminate.
  - destruct (m !! p) as [[]|]; intros H; try discriminate; by injection H.
  - by destruct (Sync.first_existing m (Sync.dest_ancestors p)) as [[]|].
Qed.

Lemma sync_loop_frame (cwd : text) (es : list (text * text)) (st st' : Sync.state) (p : text) :
  Sync.sync_loop cwd es st = Sync.Ok st' ->
  (forall s d, In (s, d) es -> Sync.isJunkDoc s = false -> p <> Sync.join_cwd cwd d) ->
  Sync.fsys st' !! p = Sync.fsys st !! p.
Proof.
  revert st. induction es as [|[s d] es IH]; intros st H Hp; cbn [Sync.sync_loop] in H.
  - by injection H as <-.
  - assert (Hp' : forall s' d', In (s', d') es -> Sync.isJunkDoc s' = false ->
                                p <> Sync.join_cwd cwd d')
      by (intros s' d' Hin; apply Hp; by right).
    destruct (Sync.isJunkDoc s) eqn:Hj.
    + apply IH in H; [exact H|exact Hp'].
    + destruct (Sync.existsSync (Sync.fsys st) s); [|by apply IH].
      destruct (Sync.readFileSync (Sync.fsys st) s) as [c|e]; cbn [mbind Sync.result_bind] in H;
        [|discriminate].
      destruct (Sync.writeFileSync (Sync.fsys st) (Sync.join_cwd cwd d) c) as [m'|e] eqn:Hw;
        cbn [mbind Sync.result_bind] in H; [|discriminate].
      apply writeFileSync_ok in Hw. apply IH in H; [|exact Hp'].
      rewrite H. cbn [Sync.fsys]. rewrite Hw. apply lookup_insert_ne.
      intros Heq. apply (Hp s d); [by left|exact Hj|]. by rewrite Heq.
Qed.

(** A completed sync run leaves every path of the file system untouched
    except the destinations of non-blocked entries: blocked entries'
    destinations and the source files themselves (when no destination
    coincides with them) keep their content. *)
Theorem sync_writes_only_destinations (cwd : text) (sources : list (text * text))
    (m : gmap text Sync.fentry) (st : Sync.state) (p : text) :
  Sync.syncDocs cwd sources m = Sync.Ok st ->
  (forall s d, In (s, d) sources -> Sync.isJunkDoc s = false -> p <> Sync.join_cwd cwd d) ->
  Sync.fsys st !! p = m !! p.
Proof.
  unfold Sync.syncDocs. intros H Hp.
  destruct (Sync.sync_loop cwd sources (Sync.mkState m 0 0 [])) as [st0|e] eqn:Hl;
    cbn [mbind Sync.result_bind] in H; [|discriminate].
  injection H as <-. cbn [Sync.fsys]. exact (sync_loop_frame _ _ _ _ _ Hl Hp).
Qed.

Lemma sync_writes_only_destinations_witness :
  exists st, Sync.syncDocs (u "/srv/docs") Sync.APPROVED_SOURCES sample_fs = Sync.Ok st /\
    Sync.fsys st !! u "/mnt/development/README.md" = sample_fs !! u "/mnt/development/README.md".
Proof.
  eexists. split; [vm_compute; reflexivity|].
  apply (sync_writes_only_destinations (u "/srv/docs") Sync.APPROVED_SOURCES sample_fs).
  - vm_compute. reflexivity.
  - intros s d Hin _. cbn [Sync.APPROVED_SOURCES In] in Hin.
    repeat destruct Hin as [Hin|Hin]; try contradiction; injection Hin as <- <-;
      vm_compute; discriminate.
Defined.

Lemma sync_loop_log (cwd : text) (es : list (text * text)) (st st' : Sync.state) :
  Sync.sync_loop cwd es st = Sync.Ok st' ->
  exists new, Sync.log st' = Sync.log st ++ new /\
    (length (List.filter is_blocked_line new) + Sync.blocked st = Sync.blocked st')%nat /\
    (length (List.filter is_synced_line new) + Sync.synced st = Sync.synced st')%nat /\
    (length new + Sync.synced st + Sync.blocked st = Sync.synced st' + Sync.blocked st')%nat.
Proof.
  revert st. induction es as [|[s d] es IH]; intros st H; cbn [Sync.sync_loop] in H.
  - injection H as <-. exists []. rewrite app_nil_r. auto.
  - destruct (Sync.isJunkDoc s) eqn:Hj.
    + apply IH in H as (new & Hlog & Hb & Hs & Hn). cbn [Sync.log Sync.blocked Sync.synced] in *.
      exists (([cross_mark] ++ u " Blocked: " ++ s) :: new). rewrite Hlog, <- app_assoc.
      split; [reflexivity|]. cbn [List.filter length].
      assert (Hb1 : is_blocked_line ([cross_mark] ++ u " Blocked: " ++ s) = true).
      { unfold is_blocked_line. rewrite app_assoc. apply is_prefix_self. }
      assert (Hs1 : is_synced_line ([cross_mark] ++ u " Blocked: " ++ s) = false) by reflexivity.
      rewrite Hb1, Hs1. cbn [length]. lia.
    + destruct (Sync.existsSync (Sync.fsys st) s); [|by apply IH].
      destruct (Sync.readFileSync (Sync.fsys st) s) as [c|e]; cbn [mbind Sync.result_bind] in H;
        [|discriminate].
      destruct (Sync.writeFileSync (Sync.fsys st) (Sync.join_cwd cwd d) c) as [m'|e];
        cbn [mbind Sync.result_bind] in H; [|discriminate].
      apply IH in H as (new & Hlog & Hb & Hs & Hn). cbn [Sync.log Sync.blocked Sync.synced] in *.
      set (l := [check_mark] ++ u " Synced: " ++ s ++ u " " ++ [Sync.arrow] ++ u " " ++ d).
      exists (l :: new). rewrite Hlog, <- app_assoc.
      split; [reflexivity|]. cbn [List.filter length].
      assert (Hs1 : is_synced_line l = true).
      { unfold is_synced_line, l. rewrite app_assoc. apply is_prefix_self. }
      assert (Hb1 : is_blocked_line l = false) by reflexivity.
      rewrite Hb1, Hs1. cbn [length]. lia.
Qed.

(** A completed sync run prints one [Blocked] line per blocked entry and
    one [Synced] line per synced entry, and nothing else before its last
    line, the summary, whose counts are those numbers. *)
Theorem sync_log_summary (cwd : text) (sources : list (text * text))
    (m : gmap text Sync.fentry) (st : Sync.state) :
  Sync.syncDocs cwd sources m = Sync.Ok st ->
  exists lines, Sync.log st = lines ++ [Sync.summary_line st] /\
    length (List.filter is_blocked_line lines) = Sync.blocked st /\
    length (List.filter is_synced_line lines) = Sync.synced st /\
    length lines = (Sync.synced st + Sync.blocked st)%nat.
Proof.
  unfold Sync.syncDocs. intros H.
  destruct (Sync.sync_loop cwd sources (Sync.mkState m 0 0 [])) as [st0|e] eqn:Hl;
    cbn [mbind Sync.result_bind] in H; [|discriminate].
  injection H as <-. apply sync_loop_log in Hl as (new & Hlog & Hb & Hs & Hn).
  cbn [Sync.log Sync.blocked Sync.synced app] in *. exists new.
  rewrite Hlog. unfold Sync.summary_line. cbn [Sync.synced Sync.blocked].
  split; [reflexivity|]. lia.
Qed.

Lemma sync_log_summary_witness :
  exists st lines, Sync.syncDocs (u "/srv/docs") Sync.APPROVED_SOURCES sample_fs = Sync.Ok st /\
    Sync.log st = lines ++ [Sync.summary_line st] /\
    length (List.filter is_blocked_line lines) = Sync.blocked st /\
    length (List.filter is_synced_line lines) = Sync.synced st /\
    length lines = (Sync.synced st + Sync.blocked st)%nat.
Proof.
  eexists. assert (H : Sync.syncDocs (u "/srv/docs") Sync.APPROVED_SOURCES sample_fs = Sync.Ok _)
    by (vm_compute; reflexivity).
  destruct (sync_log_summary _ _ _ _ H) as (lines & Hl). exists lines. split; [exact H|exact Hl].
Defined.







(** ** The junk tests of the three scripts *)

Lemma test_ci_word_tail (x : N) (w s : text) :
  test_ci_word (x :: w) s = true -> test_ci_word w s = true.
Proof.
  rewrite !test_ci_word_spec. intros (pre & mid & post & Hs & Hm).
  destruct mid as [|y mid]; [discriminate|]. cbn [map] in Hm. injection Hm as _ Hm.
  exists (pre ++ [y]), mid, post. split; [|exact Hm]. rewrite Hs, <- app_assoc. reflexivity.
Qed.

Lemma endsWith_ci_word (w s : text) :
  endsWith_ci s (w ++ u ".md") = true -> test_ci_word w s = true.
Proof.
  unfold endsWith_ci. rewrite is_prefix_ci_spec, test_ci_word_spec.
  intros (mid & post & Hs & Hm). rewrite rev_app_distr, map_app in Hm.
  apply map_eq_app in Hm as (m1 & m2 & -> & _ & Hm2).
  exists (rev post), (rev m2), (rev m1). split.
  - rewrite <- (rev_involutive s), Hs, !rev_app_distr, app_assoc. reflexivity.
  - by rewrite map_rev, Hm2, <- map_rev, rev_involutive.
Qed.

Lemma test_word_any_md_word (w s : text) :
  Loose.test_word_any_md w s = true -> test_ci_word w s = true.
Proof.
  induction s as [|x s IH]; cbn [Loose.test_word_any_md test_ci_word];
    rewrite !orb_true_iff, andb_true_iff.
  - intros [[H _]|H]; [by left|discriminate].
  - intros [[H _]|H]; [by left|right; by apply IH].
Qed.

(** Every file name the loose Validator flags as junk is flagged by the
    strict Validator too, and so is every path the Sync Engine blocks; the
    strict test flags more (a blocked word anywhere in the name, and
    [VERIFICATION], which the Sync Engine does not block). *)
Theorem junk_tests_nested :
  (forall s, existsb (fun p => Loose.test p s) Loose.JUNK_PATTERNS = true ->
             existsb (fun w => test_ci_word w s) Strict.JUNK_PATTERNS = true) /\
  (forall s, Sync.isJunkDoc s = true ->
             existsb (fun w => test_ci_word w s) Strict.JUNK_PATTERNS = true) /\
  existsb (fun p => Loose.test p (u "status-notes.md")) Loose.JUNK_PATTERNS = false /\
  existsb (fun w => test_ci_word w (u "status-notes.md")) Strict.JUNK_PATTERNS = true /\
  Sync.isJunkDoc (u "/docs/VERIFICATION.md") = false /\
  existsb (fun w => test_ci_word w (u "/docs/VERIFICATION.md")) Strict.JUNK_PATTERNS = true.
Proof.
  split; [|split; [|vm_compute; auto]].
  - intros s H. apply existsb_exists in H as (p & Hp & Ht). apply existsb_exists.
    cbn [Loose.JUNK_PATTERNS In] in Hp.
    repeat destruct Hp as [<-|Hp]; try contradiction; cbn [Loose.test] in Ht;
      try (apply endsWith_ci_word in Ht); try (apply test_word_any_md_word in Ht).
    + exists (u "SUMMARY"). split; [cbn; tauto|exact Ht].
    + exists (u "COMPLETE"). split; [cbn; tauto|exact Ht].
    + exists (u "FIXES"). split; [cbn; tauto|exact Ht].
    + exists (u "SESSION"). split; [cbn; tauto|exact Ht].
    + exists (u "PROMPT"). split; [cbn; tauto|exact Ht].
    + exists (u "STATUS"). split; [cbn; tauto|exact Ht].
    + exists (u "AUDIT"). split; [cbn; tauto|].
      change (u "_AUDIT") with (95%N :: u "AUDIT") in Ht. exact (test_ci_word_tail _ _ _ Ht).
    + exists (u "VERIFICATION"). split; [cbn; tauto|exact Ht].
  - intros s H. unfold Sync.isJunkDoc in H. apply existsb_exists in H as (w & Hw & Ht).
    apply existsb_exists. exists w. split; [|exact Ht].
    cbn [Sync.BLOCKED_PATTERNS In] in Hw. cbn [Strict.JUNK_PATTERNS In]. tauto.
Qed.

Lemma junk_tests_nested_witness :
  existsb (fun w => test_ci_word w (u "guide/SESSION_NOTES.md")) Strict.JUNK_PATTERNS = true /\
  existsb (fun w => test_ci_word w (u "/mnt/development/PROMPT.md")) Strict.JUNK_PATTERNS = true.
Proof.
  destruct junk_tests_nested as (H1 & H2 & _). split.
  - apply H1. vm_compute. reflexivity.
  - apply H2. vm_compute. reflexivity.
Defined.

(** ** The errors of one file *)

(** The loose Validator reports at most two errors for a file and the
    strict one at most three (one junk error and one per required field);
    in the strict Validator, [Missing frontmatter block] excludes every
    per-field error. *)
Theorem validateFile_error_bounds (path content : text) :
  (length (Loose.validateFile path content) <= 2)%nat /\
  (length (Strict.validateFile path content) <= 3)%nat /\
  (In (u "Missing frontmatter block") (Strict.validateFile path content) ->
   Strict.validateFile path content
   = (if existsb (fun w => test_ci_word w (pop (split_char slash path))) Strict.JUNK_PATTERNS
      then [u "Junk doc detected: " ++ pop (split_char slash path)] else [])
     ++ [u "Missing frontmatter block"]).
Proof.
  unfold Loose.validateFile, Strict.validateFile. cbv zeta. split; [|split].
  - rewrite length_app.
    destruct (existsb _ _); (destruct (startsWith content (u "---")); [|cbn; lia]);
      cbn [flat_map Loose.REQUIRED_FRONTMATTER]; destruct (includes _ _); cbn; lia.
  - rewrite length_app.
    destruct (existsb _ _), (Strict.extractFrontmatter content) as [fm|];
      try (cbn; lia); destruct (Strict.falsy (Some fm)); try (cbn; lia);
      cbn [flat_map Strict.REQUIRED_FRONTMATTER];
      destruct (test_line_start (u "title" ++ u ":") fm), (test_line_start (u "description" ++ u ":") fm);
      cbn; lia.
  - set (j := if existsb _ _ then _ else _).
    destruct (Strict.extractFrontmatter content) as [fm|]; [|done].
    destruct (Strict.falsy (Some fm)); [done|].
    intros Hin. exfalso. apply in_app_or in Hin as [Hin|Hin].
    + unfold j in Hin. destruct (existsb _ _); [|done].
      destruct Hin as [Hin|[]]. vm_compute in Hin. discriminate.
    + cbn [flat_map Strict.REQUIRED_FRONTMATTER] in Hin.
      destruct (test_line_start (u "title" ++ u ":") fm), (test_line_start (u "description" ++ u ":") fm);
        cbn [app In] in Hin; repeat destruct Hin as [Hin|Hin]; try contradiction;
        vm_compute in Hin; discriminate.
Qed.

Lemma validateFile_error_bounds_witness :
  Strict.validateFile (u "guide/STATUS.md") (u "# no block")
  = [u "Junk doc detected: STATUS.md"] ++ [u "Missing frontmatter block"].
Proof.
  apply (proj2 (proj2 (validateFile_error_bounds (u "guide/STATUS.md") (u "# no block")))).
  vm_compute. right. left. reflexivity.
Defined.

(** ** Running the Sync Engine twice *)










